(** * planner: the canvas view layer ([src/react/canvas_ux.tsx])

    A shallow embedding of the effects and handlers of [Canvas] and of
    the element trees [ConferenceView] and [DaysView] return, followed
    by the properties of the specification.

    How the source is read:
    - the objects the component only holds references to (the two tree
      views, the container, the audience) live in one [World]; the
      callbacks handed in as props ([setCurrentUser], [setSaved], ...)
      are observed through the log [calls] of their invocations;
    - a closure is a constructor of [Handler] carrying what it captured;
    - [useEffect (..., [])] is an [Effect]: it runs once on mount and may
      hand back a [Cleanup], which React runs on unmount;
    - JSX is a tree of element descriptors ([Element]); a component is
      not called when its element is created, so the elements of
      components stay nodes that hold their props. *)

From Stdlib Require Import QArith.Qcanon.
From stdpp Require Import base strings list gmap pretty.

Open Scope string_scope.
Open Scope list_scope.

Set Warnings "-register-all".

(** ** JavaScript values *)

(** The values a field typed [string] can hold at run time once the
    code tests it against [undefined] and with [typeof]. *)
Inductive JsValue : Type :=
  | JsUndefined
  | JsNull
  | JsBoolean (b : bool)
  | JsString (s : string).

(** [v == undefined]: loose equality holds for [undefined] and [null]
    only. *)
Definition loosely_undefined (v : JsValue) : bool :=
  match v with
  | JsUndefined | JsNull => true
  | _ => false
  end.

(** [typeof v]. *)
Definition typeof (v : JsValue) : string :=
  match v with
  | JsUndefined => "undefined"
  | JsNull => "object"
  | JsBoolean _ => "boolean"
  | JsString _ => "string"
  end.

(** ** The collaboration framework, as far as the file reads it *)

(** [ConnectionState] of fluid-framework. *)
Inductive ConnectionState : Type :=
  | Disconnected
  | EstablishingConnection
  | CatchingUp
  | Connected.

#[global] Instance ConnectionState_eq_dec : EqDecision ConnectionState.
Proof. solve_decision. Defined.

(** [IMember]: only [userId] is read. *)
Record IMember : Type := { userId : JsValue }.

(** [Tree.key] answers [number | string]: the index of a node that sits
    in an array (a natural number, far below the range where a double
    stops being exact), the field name of one that sits in an object. *)
Inductive TreeKey : Type :=
  | KNum (k : N)
  | KStr (s : string).

(** [(key as number) + 1]: the cast is erased at run time, so [+] adds
    on a number and concatenates on a string. *)
Definition key_plus_one (key : TreeKey) : TreeKey :=
  match key with
  | KNum k => KNum (k + 1)
  | KStr s => KStr (s +:+ "1")
  end.

(** [prefix + v] for a string [prefix]: a number is printed in decimal. *)
Definition string_plus (prefix : string) (v : TreeKey) : string :=
  match v with
  | KNum k => prefix +:+ pretty k
  | KStr s => prefix +:+ s
  end.

(** The invocations of the callback props. *)
Inductive SetterCall : Type :=
  | setCurrentUser (arg : string)
  | setConnectionState (arg : string)
  | setSaved (arg : bool)
  | setFluidMembers (arg : list string)
  | setShowPrompt (arg : bool).

(** The closures [Canvas] creates, each with the variables it captured:
    - [h_treeChanged inv] is
      [() => setInvalidations(invalidations + Math.random())],
    - [h_updateConnectionState] is [updateConnectionState],
    - [h_setSaved b] is [() => props.setSaved(b)],
    - [h_updateMembers user] is [updateMembers], [user] being
      [props.currentUser]. *)
Inductive Handler : Type :=
  | h_treeChanged (invalidations : Qc)
  | h_updateConnectionState
  | h_setSaved (b : bool)
  | h_updateMembers (currentUser : string).

#[global] Instance Handler_eq_dec : EqDecision Handler.
Proof. solve_decision. Defined.

(** [IFluidContainer]: the two getters and the listeners added by [on]. *)
Record Container : Type := {
  connectionState : ConnectionState;
  isDirty : bool;
  container_listeners : list (string * Handler)
}.

(** [IServiceAudience]: [getMyself()], [getMembers()] (a [Map] from
    client id to member, whose iteration order is left abstract) and the
    listeners added by [on]. *)
Record Audience : Type := {
  getMyself : option IMember;
  getMembers : option (gmap string IMember);
  audience_listeners : list (string * Handler)
}.

(** [Array.from(m.keys())]. *)
Definition Map_keys (m : gmap string IMember) : list string :=
  (map_to_list m).*1.

(** [emitter.off(event, listener)]: at most one registration goes, the
    one added last. *)
Fixpoint remove_first {A} `{EqDecision A} (x : A) (l : list A) : list A :=
  match l with
  | [] => []
  | y :: l' => if decide (x = y) then l' else y :: remove_first x l'
  end.

Definition remove_last {A} `{EqDecision A} (x : A) (l : list A) : list A :=
  reverse (remove_first x (reverse l)).

Section Planner.

(** The schema modules ([app_schema], [session_schema]) and the
    constant [undefinedUserId] of [utils] are imported by the file;
    what it reads of them is taken as given: a session has an [id]. *)
Context {Session ClientSession : Type}.
Variable id : Session -> string.
Variable undefinedUserId : string.

(** ** The conference tree *)

(** A [Sessions] array node: the sessions it iterates over and the key
    the framework assigned to the node in its parent. *)
Record Sessions : Type := {
  Tree_key : TreeKey;
  items : list Session
}.

Record Conference : Type := {
  sessions : Sessions;
  days : list Sessions
}.

(** ** The world a mounted [Canvas] runs in *)

Record World : Type := {
  conferenceTree_root : Conference;
  sessionTree_root : ClientSession;
  (** listeners of ["treeChanged"] on the conference root ([Tree.on]) *)
  treeChanged_listeners : list Handler;
  container : Container;
  audience : Audience;
  (** the component state of [useState(0)] *)
  invalidations : Qc;
  (** every call of a callback prop so far, oldest first *)
  calls : list SetterCall
}.

(** [props.setX(arg)]. *)
Definition invoke (c : SetterCall) (w : World) : World :=
  {| conferenceTree_root := conferenceTree_root w;
     sessionTree_root := sessionTree_root w;
     treeChanged_listeners := treeChanged_listeners w;
     container := container w;
     audience := audience w;
     invalidations := invalidations w;
     calls := calls w ++ [c] |}.

Definition setInvalidations (v : Qc) (w : World) : World :=
  {| conferenceTree_root := conferenceTree_root w;
     sessionTree_root := sessionTree_root w;
     treeChanged_listeners := treeChanged_listeners w;
     container := container w;
     audience := audience w;
     invalidations := v;
     calls := calls w |}.

Definition set_treeChanged_listeners (l : list Handler) (w : World) : World :=
  {| conferenceTree_root := conferenceTree_root w;
     sessionTree_root := sessionTree_root w;
     treeChanged_listeners := l;
     container := container w;
     audience := audience w;
     invalidations := invalidations w;
     calls := calls w |}.

Definition set_container_listeners (l : list (string * Handler)) (w : World)
  : World :=
  {| conferenceTree_root := conferenceTree_root w;
     sessionTree_root := sessionTree_root w;
     treeChanged_listeners := treeChanged_listeners w;
     container := {| connectionState := connectionState (container w);
                     isDirty := isDirty (container w);
                     container_listeners := l |};
     audience := audience w;
     invalidations := invalidations w;
     calls := calls w |}.

Definition set_audience_listeners (l : list (string * Handler)) (w : World)
  : World :=
  {| conferenceTree_root := conferenceTree_root w;
     sessionTree_root := sessionTree_root w;
     treeChanged_listeners := treeChanged_listeners w;
     container := container w;
     audience := {| getMyself := getMyself (audience w);
                    getMembers := getMembers (audience w);
                    audience_listeners := l |};
     invalidations := invalidations w;
     calls := calls w |}.

(** ** Subscribing and unsubscribing *)

Inductive Cleanup : Type :=
  | cleanup_unsubscribe (h : Handler)
  | cleanup_audience_off (event : string) (h : Handler).

(** [Tree.on(root, "treeChanged", h)] adds [h] and answers the function
    that takes it off again. *)
Definition Tree_on (h : Handler) (w : World) : World * Cleanup :=
  (set_treeChanged_listeners (treeChanged_listeners w ++ [h]) w,
   cleanup_unsubscribe h).

Definition container_on (event : string) (h : Handler) (w : World) : World :=
  set_container_listeners (container_listeners (container w) ++ [(event, h)]) w.

Definition audience_on (event : string) (h : Handler) (w : World) : World :=
  set_audience_listeners (audience_listeners (audience w) ++ [(event, h)]) w.

Definition audience_off (event : string) (h : Handler) (w : World) : World :=
  set_audience_listeners (remove_last (event, h) (audience_listeners (audience w))) w.

Definition run_cleanup (c : Cleanup) (w : World) : World :=
  match c with
  | cleanup_unsubscribe h =>
      set_treeChanged_listeners (remove_last h (treeChanged_listeners w)) w
  | cleanup_audience_off event h => audience_off event h w
  end.

(** ** The handlers of [Canvas] *)

Definition updateConnectionState (w : World) : World :=
  if decide (connectionState (container w) = Connected) then
    invoke (setConnectionState "connected") w
  else if decide (connectionState (container w) = Disconnected) then
    invoke (setConnectionState "disconnected") w
  else if decide (connectionState (container w) = EstablishingConnection) then
    invoke (setConnectionState "connecting") w
  else if decide (connectionState (container w) = CatchingUp) then
    invoke (setConnectionState "catching up") w
  else w.

(** [member?.userId]. *)
Definition optional_userId (member : option IMember) : JsValue :=
  match member with
  | Some m => userId m
  | None => JsUndefined
  end.

(** [updateMembers], closed over [props.currentUser]. *)
Definition updateMembers (currentUser : string) (w : World) : World :=
  match getMyself (audience w) with
  | None => w
  | Some _ =>
    if loosely_undefined (optional_userId (getMyself (audience w))) then w
    else
      match getMembers (audience w) with
      | None => w
      | Some members =>
        if decide (connectionState (container w) ≠ Connected) then w
        else
          let w1 :=
            if decide (currentUser = undefinedUserId) then
              let user := optional_userId (getMyself (audience w)) in
              if decide (typeof user = "string") then
                match user with
                | JsString s => invoke (setCurrentUser s) w
                | _ => w
                end
              else w
            else w in
          invoke (setFluidMembers (Map_keys members)) w1
      end
  end.

(** Calling a closure; [random] is what [Math.random()] answers in it
    (a rational stands for the double). *)
Definition run (h : Handler) (random : Qc) (w : World) : World :=
  match h with
  | h_treeChanged inv => setInvalidations (inv + random) w
  | h_updateConnectionState => updateConnectionState w
  | h_setSaved b => invoke (setSaved b) w
  | h_updateMembers user => updateMembers user w
  end.

(** ** The effects of [Canvas] *)

(** The props a closure of [Canvas] captures by value. *)
Record CanvasProps : Type := {
  currentUser : string
}.

(** The body of a [useEffect]: it changes the world and may return a
    cleanup. *)
Definition Effect : Type := World -> World * option Cleanup.

(** First effect: the tree subscription; returns [unsubscribe]. *)
Definition effect_tree (inv : Qc) : Effect := fun w =>
  let '(w1, unsubscribe) := Tree_on (h_treeChanged inv) w in
  (w1, Some unsubscribe).

(** Second effect: connection state and saved flag now, then five
    [container.on]; the function returns nothing. *)
Definition effect_container : Effect := fun w =>
  let w1 := updateConnectionState w in
  let w2 := invoke (setSaved (negb (isDirty (container w1)))) w1 in
  let w3 := container_on "connected" h_updateConnectionState w2 in
  let w4 := container_on "disconnected" h_updateConnectionState w3 in
  let w5 := container_on "dirty" (h_setSaved false) w4 in
  let w6 := container_on "saved" (h_setSaved true) w5 in
  let w7 := container_on "disposed" h_updateConnectionState w6 in
  (w7, None).

(** Third effect: the audience subscription; returns the [off]. *)
Definition effect_audience (props : CanvasProps) : Effect := fun w =>
  let updateMembers := h_updateMembers (currentUser props) in
  (audience_on "membersChanged" updateMembers w,
   Some (cleanup_audience_off "membersChanged" updateMembers)).

(** The effects in source order; [inv] is the [invalidations] of the
    render that created them. *)
Definition Canvas_effects (props : CanvasProps) (inv : Qc) : list Effect :=
  [effect_tree inv; effect_container; effect_audience props].

Fixpoint run_effects (es : list Effect) (w : World) : World * list Cleanup :=
  match es with
  | [] => (w, [])
  | e :: es' =>
      let '(w1, c) := e w in
      let '(w2, cs) := run_effects es' w1 in
      (w2, option_list c ++ cs)
  end.

(** Mounting: [useState(0)], then every effect (all have [[]] as
    dependencies, so they run this once); the cleanups are kept for
    the unmount. *)
Definition mount (props : CanvasProps) (w : World) : World * list Cleanup :=
  run_effects (Canvas_effects props 0) (setInvalidations 0 w).

Definition unmount (cleanups : list Cleanup) (w : World) : World :=
  foldl (fun w c => run_cleanup c w) w cleanups.

(** ** Notifications *)

Inductive Notification : Type :=
  | tree_emits_treeChanged (random : Qc)
  | container_emits (event : string)
  | audience_emits (event : string).

Definition listeners_of (event : string) (l : list (string * Handler))
  : list Handler :=
  (filter (fun eh => eh.1 = event) l).*2.

Definition notified (n : Notification) (w : World) : list Handler :=
  match n with
  | tree_emits_treeChanged _ => treeChanged_listeners w
  | container_emits event => listeners_of event (container_listeners (container w))
  | audience_emits event => listeners_of event (audience_listeners (audience w))
  end.

Definition random_of (n : Notification) : Qc :=
  match n with
  | tree_emits_treeChanged random => random
  | _ => 0
  end.

(** The emitter calls, in the order they were added, the listeners it
    holds when the notification starts. *)
Definition deliver (n : Notification) (w : World) : World :=
  foldl (fun w h => run h (random_of n) w) w (notified n w).

(** ** Elements *)

(** The props of [ConferenceView] and of [DaysView]. *)
Record ViewProps : Type := {
  conference : Conference;
  clientId : string;
  clientSession : ClientSession;
  fluidMembers : list string
}.

(** What a JSX expression of the two views evaluates to. A component is
    not called when its element is created: [E_SessionsView],
    [E_RootSessionWrapper] and [E_DaysView] hold the props they were
    given. [E_SessionsView] has [conference] when the props were spread
    into it. *)
Inductive Element : Type :=
  | E_div (className : string) (children : list Element)
  | E_Fragment (children : list Element)
  | E_RootSessionWrapper (key : string) (session : Session)
      (clientId : string) (clientSession : ClientSession)
      (fluidMembers : list string)
  | E_SessionsView (key : option TreeKey) (sessions : Sessions)
      (title : string) (clientId : string) (clientSession : ClientSession)
      (fluidMembers : list string) (conference : option Conference)
  | E_DaysView (props : ViewProps).

Definition children (e : Element) : list Element :=
  match e with
  | E_div _ cs | E_Fragment cs => cs
  | _ => []
  end.

(** Every element of a tree, the root first. *)
Fixpoint nodes (e : Element) : list Element :=
  e :: match e with
       | E_div _ cs | E_Fragment cs => concat (map nodes cs)
       | _ => []
       end.

Definition is_RootSessionWrapper (e : Element) : bool :=
  match e with
  | E_RootSessionWrapper _ _ _ _ _ => true
  | _ => false
  end.

(** The per-session elements a tree contains. *)
Definition RootSessionWrappers (e : Element) : list Element :=
  filter (fun x => is_RootSessionWrapper x = true) (nodes e).

(** ** [ConferenceView] *)

(** The loop that fills [sessionArray]. *)
Definition ConferenceView_sessionArray (props : ViewProps) : list Element :=
  foldl
    (fun sessionArray i =>
       sessionArray ++
       [E_RootSessionWrapper (id i) i (clientId props) (clientSession props)
          (fluidMembers props)])
    [] (items (sessions (conference props))).

(** The [return] statement, with [sessionArray] in scope. *)
Definition ConferenceView_return (props : ViewProps)
    (sessionArray : list Element) : Element :=
  E_div "flex flex-col h-full w-full content-start overflow-auto"
    [ E_div "flex w-full p-4"
        [ E_SessionsView None (sessions (conference props)) "Unscheduled"
            (clientId props) (clientSession props) (fluidMembers props)
            (Some (conference props)) ];
      E_div "flex flex-row h-full w-full flex-nowrap gap-4 p-4 content-start"
        [ E_DaysView props ];
      E_div "flex w-full h-24" [] ].

Definition ConferenceView (props : ViewProps) : Element :=
  let sessionArray := ConferenceView_sessionArray props in
  ConferenceView_return props sessionArray.

(** ** [DaysView] *)

Definition DaysView (props : ViewProps) : Element :=
  let dayArray :=
    foldl
      (fun dayArray day =>
         dayArray ++
         [E_SessionsView (Some (Tree_key day)) day
            (string_plus "Day " (key_plus_one (Tree_key day)))
            (clientId props) (clientSession props) (fluidMembers props)
            None])
      [] (days (conference props)) in
  E_Fragment dayArray.

(** ** Observing a handler *)

(** The calls logged between [w] and a later world [w']. *)
Definition new_calls (w w' : World) : list SetterCall :=
  drop (length (calls w)) (calls w').

Definition is_setCurrentUser (c : SetterCall) : bool :=
  match c with
  | setCurrentUser _ => true
  | _ => false
  end.

(** The argument a call may carry when a handler of [Canvas] makes it in
    world [w]: one of the four labels, any boolean, the user id of
    [getMyself()], the keys of [getMembers()]. *)
Definition derived_from (w : World) (c : SetterCall) : Prop :=
  match c with
  | setConnectionState label =>
      label ∈ ["connected"; "disconnected"; "connecting"; "catching up"]
  | setSaved _ => True
  | setCurrentUser user =>
      ∃ m, getMyself (audience w) = Some m ∧ userId m = JsString user
  | setFluidMembers ids =>
      ∃ members, getMembers (audience w) = Some members ∧ ids = Map_keys members
  | setShowPrompt _ => False
  end.

(** [w'] differs from [w] by setter calls with derived arguments and by
    the invalidation counter, and by nothing else. *)
Definition only_setters (w w' : World) : Prop :=
  conferenceTree_root w' = conferenceTree_root w
  ∧ sessionTree_root w' = sessionTree_root w
  ∧ treeChanged_listeners w' = treeChanged_listeners w
  ∧ container w' = container w
  ∧ audience w' = audience w
  ∧ ∃ new, calls w' = calls w ++ new ∧ Forall (derived_from w) new.

(** ** The component over time *)

(** The label [updateConnectionState] reports for a state. *)
Definition connection_label (state : ConnectionState) : string :=
  match state with
  | Connected => "connected"
  | Disconnected => "disconnected"
  | EstablishingConnection => "connecting"
  | CatchingUp => "catching up"
  end.

(** One life of the component: mounted, then unmounted with the
    cleanups its effects returned. *)
Definition remount (props : CanvasProps) (w : World) : World :=
  unmount (mount props w).2 (mount props w).1.

(** What can happen around a [Canvas]: React mounts it, React unmounts
    what is mounted, the framework notifies. *)
Inductive Action : Type :=
  | do_mount (props : CanvasProps)
  | do_unmount
  | do_notify (n : Notification).

(** The world together with the cleanups React holds for the mounted
    component. *)
Definition act (a : Action) (s : World * list Cleanup) : World * list Cleanup :=
  match a with
  | do_mount props => ((mount props s.1).1, s.2 ++ (mount props s.1).2)
  | do_unmount => (unmount s.2 s.1, [])
  | do_notify n => (deliver n s.1, s.2)
  end.

Definition lifecycle (actions : list Action) (s : World * list Cleanup)
  : World * list Cleanup :=
  foldl (fun s a => act a s) s actions.

(** [w'] has the documents and the framework state of [w]; only
    subscriptions, the invalidation counter and the call log may
    differ, the log by derived calls added at its end. *)
Definition documents_kept (w w' : World) : Prop :=
  conferenceTree_root w' = conferenceTree_root w
  ∧ sessionTree_root w' = sessionTree_root w
  ∧ connectionState (container w') = connectionState (container w)
  ∧ isDirty (container w') = isDirty (container w)
  ∧ getMyself (audience w') = getMyself (audience w)
  ∧ getMembers (audience w') = getMembers (audience w)
  ∧ ∃ new, calls w' = calls w ++ new ∧ Forall (derived_from w) new.

(** ** Rendering again *)

(** A mounted component: the props of its latest render and the
    cleanups its effects returned. *)
Record Mounted : Type := {
  props_now : CanvasProps;
  held : list Cleanup
}.

Definition mount_Canvas (props : CanvasProps) (w : World) : World * Mounted :=
  ((mount props w).1, {| props_now := props; held := (mount props w).2 |}).

(** A later render with new props. Every [useEffect] of [Canvas] has
    [[]] as dependencies: no effect runs again and no cleanup runs. The
    [updateMembers] this render creates is handed to nobody, so the
    listeners stay the closures of the first render and the world is
    as it was. *)
Definition rerender (props : CanvasProps) (s : World * Mounted)
  : World * Mounted :=
  (s.1, {| props_now := props; held := held s.2 |}).

(** ** The views, rendered *)

Definition is_SessionsView (e : Element) : bool :=
  match e with
  | E_SessionsView _ _ _ _ _ _ _ => true
  | _ => false
  end.

(** The [SessionsView] elements of a tree, in document order. *)
Definition SessionsViews (e : Element) : list Element :=
  filter (fun x => is_SessionsView x = true) (nodes e).

Definition title_of (e : Element) : option string :=
  match e with
  | E_SessionsView _ _ title _ _ _ _ => Some title
  | _ => None
  end.

Definition key_of (e : Element) : option TreeKey :=
  match e with
  | E_SessionsView key _ _ _ _ _ _ => key
  | _ => None
  end.

(** React renders an element of a function component by calling the
    function on the props the element holds. [DaysView] is the one
    component of this file whose elements occur in the trees above. *)
Fixpoint render_DaysView (e : Element) : Element :=
  match e with
  | E_div className cs => E_div className (map render_DaysView cs)
  | E_Fragment cs => E_Fragment (map render_DaysView cs)
  | E_DaysView props => DaysView props
  | _ => e
  end.

End Planner.

Arguments Sessions : clear implicits.
Arguments Conference : clear implicits.
Arguments World : clear implicits.
Arguments ViewProps : clear implicits.
Arguments Element : clear implicits.

(** ** Sample data

    A two-field session schema, the constant of [utils] set to
    ["[UNDEFINED]"], and a freshly loaded document with nobody
    listening yet. *)
Module Sample.

Record Session : Type := { id : string; title : string }.
Record ClientSession : Type := { selected : list string }.

Definition undefinedUserId : string := "[UNDEFINED]".

Definition keynote : Session := {| id := "s1"; title := "Keynote" |}.
Definition lunch : Session := {| id := "s2"; title := "Lunch" |}.

Definition conf : Conference Session :=
  {| sessions := {| Tree_key := KStr "sessions"; items := [keynote] |};
     days := [ {| Tree_key := KNum 0; items := [lunch] |};
               {| Tree_key := KNum 1; items := [] |} ] |}.

Definition view_props : ViewProps Session ClientSession :=
  {| conference := conf;
     clientId := "alice";
     clientSession := {| selected := [] |};
     fluidMembers := ["alice"] |}.

Definition alice : IMember := {| userId := JsString "alice" |}.
Definition bob : IMember := {| userId := JsString "bob" |}.

Definition members : gmap string IMember :=
  <["client-a" := alice]> (<["client-b" := bob]> ∅).

Definition world (state : ConnectionState) : World Session ClientSession :=
  {| conferenceTree_root := conf;
     sessionTree_root := {| selected := [] |};
     treeChanged_listeners := [];
     container := {| connectionState := state;
                     isDirty := false;
                     container_listeners := [] |};
     audience := {| getMyself := Some alice;
                    getMembers := Some members;
                    audience_listeners := [] |};
     invalidations := 0;
     calls := [] |}.

Definition canvas_props : CanvasProps := {| currentUser := undefinedUserId |}.

End Sample.

(** * Properties *)

Section Properties.

Context {Session ClientSession : Type}.
Variable id : Session -> string.
Variable undefinedUserId : string.

#[local] Abbreviation World := (World Session ClientSession).

Implicit Types (w : World) (h : Handler) (c : SetterCall).

(** ** Bookkeeping *)

Lemma new_calls_app w w' (l : list SetterCall) :
  calls w' = calls w ++ l → new_calls w w' = l.
Proof.
  intros E. unfold new_calls. rewrite E. apply drop_app_length.
Qed.

Lemma new_calls_same w w' : calls w' = calls w → new_calls w w' = [].
Proof.
  intros E. apply new_calls_app. rewrite E. symmetry. apply app_nil_r.
Qed.

Lemma foldl_push {A B} (f : A → B) (l : list A) (acc : list B) :
  foldl (fun arr x => arr ++ [f x]) acc l = acc ++ map f l.
Proof.
  revert acc. induction l as [|x l IH]; intros acc; simpl.
  - symmetry. apply app_nil_r.
  - rewrite IH, <- app_assoc. reflexivity.
Qed.

Lemma remove_first_hd {A} `{EqDecision A} (x : A) (l : list A) :
  remove_first x (x :: l) = l.
Proof. simpl. destruct (decide (x = x)); congruence. Qed.

Lemma remove_last_snoc {A} `{EqDecision A} (x : A) (l : list A) :
  remove_last x (l ++ [x]) = l.
Proof.
  unfold remove_last. rewrite reverse_snoc, remove_first_hd. apply reverse_involutive.
Qed.

(** ** The connection-state label *)

(** The chain of comparisons, one state at a time. *)
Lemma updateConnectionState_invoke w :
  updateConnectionState w =
  invoke (setConnectionState
            match connectionState (container w) with
            | Connected => "connected"
            | Disconnected => "disconnected"
            | EstablishingConnection => "connecting"
            | CatchingUp => "catching up"
            end) w.
Proof.
  unfold updateConnectionState.
  destruct (connectionState (container w)); reflexivity.
Qed.

(** C1. For each of the four connection states, [updateConnectionState]
    makes exactly one call, [setConnectionState] with the label of that
    state ("connected", "disconnected", "connecting", "catching up"), and
    changes nothing else; the label is a function of the state alone. *)
Theorem updateConnectionState_label w :
  let label :=
    match connectionState (container w) with
    | Connected => "connected"
    | Disconnected => "disconnected"
    | EstablishingConnection => "connecting"
    | CatchingUp => "catching up"
    end in
  updateConnectionState w = invoke (setConnectionState label) w
  ∧ new_calls w (updateConnectionState w) = [setConnectionState label].
Proof.
  simpl. split; [apply updateConnectionState_invoke|].
  rewrite updateConnectionState_invoke. apply new_calls_app. reflexivity.
Qed.

(** ** [updateMembers] *)

(** The four guards, read off one by one. *)
Lemma updateMembers_no_myself user w :
  getMyself (audience w) = None → updateMembers undefinedUserId user w = w.
Proof. intros E. unfold updateMembers. rewrite E. reflexivity. Qed.

Lemma updateMembers_no_userId user w m :
  getMyself (audience w) = Some m → loosely_undefined (userId m) = true →
  updateMembers undefinedUserId user w = w.
Proof.
  intros E U. unfold updateMembers. rewrite E. simpl.
  rewrite U. reflexivity.
Qed.

Lemma updateMembers_no_members user w :
  getMembers (audience w) = None → updateMembers undefinedUserId user w = w.
Proof.
  intros E. unfold updateMembers. rewrite E.
  destruct (getMyself (audience w)); [|reflexivity].
  destruct (loosely_undefined _); reflexivity.
Qed.

Lemma updateMembers_not_connected user w :
  connectionState (container w) ≠ Connected → updateMembers undefinedUserId user w = w.
Proof.
  intros N. unfold updateMembers.
  destruct (getMyself (audience w)); [|reflexivity].
  destruct (loosely_undefined _); [reflexivity|].
  destruct (getMembers (audience w)); [|reflexivity].
  destruct (decide _); [reflexivity|contradiction].
Qed.

(** Past the guards: what is called, in full. *)
Lemma updateMembers_passes user w m members :
  getMyself (audience w) = Some m →
  loosely_undefined (userId m) = false →
  getMembers (audience w) = Some members →
  connectionState (container w) = Connected →
  calls (updateMembers undefinedUserId user w) =
    calls w
    ++ (if decide (user = undefinedUserId) then
          match userId m with
          | JsString s => [setCurrentUser s]
          | _ => []
          end
        else [])
    ++ [setFluidMembers (Map_keys members)].
Proof.
  intros Em U Eg Ec. unfold updateMembers.
  rewrite Em, Eg. simpl. rewrite U.
  destruct (decide (connectionState (container w) ≠ Connected)) as [N|_];
    [contradiction|].
  destruct (decide (user = undefinedUserId)).
  - destruct (userId m); simpl; try discriminate;
      rewrite <- ?app_assoc; reflexivity.
  - reflexivity.
Qed.

(** Either a guard stops [updateMembers] or it runs to its last line. *)
Lemma updateMembers_cases user w :
  updateMembers undefinedUserId user w = w
  ∨ ∃ m members,
      getMyself (audience w) = Some m
      ∧ loosely_undefined (userId m) = false
      ∧ getMembers (audience w) = Some members
      ∧ connectionState (container w) = Connected.
Proof.
  destruct (getMyself (audience w)) as [m|] eqn:Em;
    [|left; by apply updateMembers_no_myself].
  destruct (loosely_undefined (userId m)) eqn:U;
    [left; by eapply updateMembers_no_userId|].
  destruct (getMembers (audience w)) as [members|] eqn:Eg;
    [|left; by apply updateMembers_no_members].
  destruct (decide (connectionState (container w) = Connected)) as [Ec|N];
    [|left; by apply updateMembers_not_connected].
  right. by exists m, members.
Qed.

(** The function by itself: one run of [updateMembers] calls
    [setCurrentUser] at most once, and if it does, the [currentUser]
    its closure holds is the sentinel [undefinedUserId] and the
    [userId] of [getMyself()] is the string passed. *)
Lemma updateMembers_setCurrentUser user w :
  (length (filter (fun c => is_setCurrentUser c = true)
             (new_calls w (updateMembers undefinedUserId user w))) ≤ 1)%nat
  ∧ ∀ arg, setCurrentUser arg ∈ new_calls w (updateMembers undefinedUserId user w) →
      user = undefinedUserId
      ∧ ∃ m, getMyself (audience w) = Some m
             ∧ userId m = JsString arg
             ∧ typeof (userId m) = "string".
Proof.
  destruct (updateMembers_cases user w) as [E|(m & members & Em & U & Eg & Ec)].
  - rewrite E, (new_calls_same w w eq_refl). split; [simpl; lia|].
    intros arg H. by apply elem_of_nil in H.
  - rewrite (new_calls_app _ _ _
               (updateMembers_passes user w m members Em U Eg Ec)).
    destruct (decide (user = undefinedUserId)) as [->|N].
    + destruct (userId m) as [| |b|s] eqn:Eu; simpl.
      1-3: split; [lia|]; intros arg H;
           apply list_elem_of_singleton in H; discriminate.
      split; [lia|]. intros arg H.
      apply elem_of_cons in H as [H|H].
      * injection H as ->. split; [reflexivity|].
        exists m. rewrite Eu. done.
      * apply list_elem_of_singleton in H. discriminate.
    + simpl. split; [lia|]. intros arg H.
      apply list_elem_of_singleton in H. discriminate.
Qed.

(** C10. When [getMyself()] is undefined, or its [userId] is undefined,
    or [getMembers()] is undefined, or the container is not [Connected],
    [updateMembers] returns at a guard: the world is as before and no
    setter has been called. *)
Theorem updateMembers_guarded user w :
  getMyself (audience w) = None
  ∨ (∃ m, getMyself (audience w) = Some m ∧ userId m = JsUndefined)
  ∨ getMembers (audience w) = None
  ∨ connectionState (container w) ≠ Connected →
  updateMembers undefinedUserId user w = w ∧ new_calls w (updateMembers undefinedUserId user w) = [].
Proof.
  intros G.
  assert (E : updateMembers undefinedUserId user w = w).
  { destruct G as [E|[(m & Em & U)|[E|N]]].
    - by apply updateMembers_no_myself.
    - apply (updateMembers_no_userId user w m Em). by rewrite U.
    - by apply updateMembers_no_members.
    - by apply updateMembers_not_connected. }
  split; [exact E|]. rewrite E. by apply new_calls_same.
Qed.

(** C8. A list that [updateMembers] hands to [setFluidMembers] is the
    key list of the member map, and no id occurs in it twice. *)
Theorem updateMembers_setFluidMembers_NoDup user w (ids : list string) :
  setFluidMembers ids ∈ new_calls w (updateMembers undefinedUserId user w) →
  (∃ members, getMembers (audience w) = Some members ∧ ids = Map_keys members)
  ∧ NoDup ids.
Proof.
  destruct (updateMembers_cases user w) as [E|(m & members & Em & U & Eg & Ec)].
  - rewrite E, (new_calls_same w w eq_refl). intros H.
    by apply elem_of_nil in H.
  - rewrite (new_calls_app _ _ _
               (updateMembers_passes user w m members Em U Eg Ec)).
    intros H. apply elem_of_app in H as [H|H].
    + destruct (decide (user = undefinedUserId)); [|by apply elem_of_nil in H].
      destruct (userId m); try (by apply elem_of_nil in H).
      apply list_elem_of_singleton in H. discriminate.
    + apply list_elem_of_singleton in H. injection H as ->.
      split; [by exists members|]. apply NoDup_fst_map_to_list.
Qed.

(** ** What a handler may touch *)

Lemma derived_from_audience w w' c :
  audience w' = audience w → derived_from w c → derived_from w' c.
Proof. intros E. destruct c; simpl; rewrite ?E; auto. Qed.

Lemma only_setters_refl w : only_setters w w.
Proof.
  repeat split. exists []. split; [symmetry; apply app_nil_r|constructor].
Qed.

Lemma only_setters_trans w1 w2 w3 :
  only_setters w1 w2 → only_setters w2 w3 → only_setters w1 w3.
Proof.
  intros (C1 & S1 & T1 & K1 & A1 & new1 & E1 & F1)
         (C2 & S2 & T2 & K2 & A2 & new2 & E2 & F2).
  repeat split; try congruence.
  exists (new1 ++ new2). split.
  - rewrite E2, E1, app_assoc. reflexivity.
  - apply Forall_app. split; [exact F1|].
    eapply Forall_impl; [exact F2|]. intros c.
    apply derived_from_audience. congruence.
Qed.

Lemma only_setters_invoke w c : derived_from w c → only_setters w (invoke c w).
Proof.
  intros D. repeat split. exists [c]. split; [reflexivity|].
  constructor; [exact D|constructor].
Qed.

Lemma only_setters_setInvalidations w v : only_setters w (setInvalidations v w).
Proof.
  repeat split. exists []. split; [symmetry; apply app_nil_r|constructor].
Qed.

Lemma only_setters_updateConnectionState w :
  only_setters w (updateConnectionState w).
Proof.
  rewrite updateConnectionState_invoke.
  apply only_setters_invoke. simpl.
  destruct (connectionState (container w)); set_solver.
Qed.

Lemma only_setters_updateMembers user w :
  only_setters w (updateMembers undefinedUserId user w).
Proof.
  unfold updateMembers.
  destruct (getMyself (audience w)) as [m|] eqn:Em;
    [|apply only_setters_refl].
  simpl. destruct (loosely_undefined (userId m)); [apply only_setters_refl|].
  destruct (getMembers (audience w)) as [members|] eqn:Eg;
    [|apply only_setters_refl].
  destruct (decide _); [apply only_setters_refl|].
  eapply only_setters_trans; [|apply only_setters_invoke].
  - destruct (decide (user = undefinedUserId)); [|apply only_setters_refl].
    destruct (userId m) as [| |b|s] eqn:Eu; simpl; try apply only_setters_refl.
    apply only_setters_invoke. simpl. by exists m.
  - simpl. exists members. split; [|reflexivity].
    destruct (decide (user = undefinedUserId)); [|exact Eg].
    destruct (userId m); exact Eg.
Qed.

Lemma only_setters_run h random w : only_setters w (run undefinedUserId h random w).
Proof.
  destruct h; simpl.
  - apply only_setters_setInvalidations.
  - apply only_setters_updateConnectionState.
  - by apply only_setters_invoke.
  - apply only_setters_updateMembers.
Qed.

Lemma only_setters_runs (hs : list Handler) random w :
  only_setters w (foldl (fun w h => run undefinedUserId h random w) w hs).
Proof.
  revert w. induction hs as [|h hs IH]; intros w; simpl.
  - apply only_setters_refl.
  - eapply only_setters_trans; [apply only_setters_run|apply IH].
Qed.

(** C7. Whatever the notification, the handlers it reaches leave the
    conference tree and the client-session tree as they were, and the
    container, the audience and the subscriptions too; what they add to
    the world is a run of setter calls, each with an argument derived
    from the container or the audience (a connection-state label, a
    boolean, the user id of [getMyself()], the keys of [getMembers()]).
    The invalidation counter alone is not constrained. *)
Theorem deliver_only_calls_setters (n : Notification) w :
  let w' := deliver undefinedUserId n w in
  conferenceTree_root w' = conferenceTree_root w
  ∧ sessionTree_root w' = sessionTree_root w
  ∧ container w' = container w
  ∧ audience w' = audience w
  ∧ treeChanged_listeners w' = treeChanged_listeners w
  ∧ calls w' = calls w ++ new_calls w w'
  ∧ Forall (derived_from w) (new_calls w w').
Proof.
  destruct (only_setters_runs (notified n w) (random_of n) w)
    as (C & S & T & K & A & new & E & F).
  fold (deliver undefinedUserId n w) in *. simpl.
  rewrite (new_calls_app _ _ _ E). auto 10.
Qed.

(** ** Mounting and unmounting *)

(** The five registrations of the second effect, in source order. *)
#[local] Abbreviation container_subscriptions :=
  [ ("connected", h_updateConnectionState);
    ("disconnected", h_updateConnectionState);
    ("dirty", h_setSaved false);
    ("saved", h_setSaved true);
    ("disposed", h_updateConnectionState) ].

Lemma mount_cleanups props w :
  (mount props w).2 =
  [ cleanup_unsubscribe (h_treeChanged 0);
    cleanup_audience_off "membersChanged" (h_updateMembers (currentUser props)) ].
Proof. reflexivity. Qed.

Lemma mount_container_listeners props w :
  container_listeners (container (mount props w).1) =
  container_listeners (container w) ++ container_subscriptions.
Proof.
  unfold mount, Canvas_effects, run_effects, effect_tree, effect_container,
    effect_audience, Tree_on. simpl.
  rewrite updateConnectionState_invoke. simpl.
  rewrite <- !app_assoc. reflexivity.
Qed.

Lemma mount_treeChanged_listeners props w :
  treeChanged_listeners (mount props w).1 =
  treeChanged_listeners w ++ [h_treeChanged 0].
Proof.
  unfold mount, Canvas_effects, run_effects, effect_tree, effect_container,
    effect_audience, Tree_on. simpl.
  rewrite updateConnectionState_invoke. reflexivity.
Qed.

Lemma mount_audience_listeners props w :
  audience_listeners (audience (mount props w).1) =
  audience_listeners (audience w)
  ++ [("membersChanged", h_updateMembers (currentUser props))].
Proof.
  unfold mount, Canvas_effects, run_effects, effect_tree, effect_container,
    effect_audience, Tree_on. simpl.
  rewrite updateConnectionState_invoke. reflexivity.
Qed.

Lemma unmount_mount_listeners props w :
  let w2 := unmount (mount props w).2 (mount props w).1 in
  treeChanged_listeners w2 = treeChanged_listeners w
  ∧ audience_listeners (audience w2) = audience_listeners (audience w)
  ∧ container_listeners (container w2) =
    container_listeners (container w) ++ container_subscriptions.
Proof.
  pose proof (mount_treeChanged_listeners props w) as T.
  pose proof (mount_audience_listeners props w) as A.
  pose proof (mount_container_listeners props w) as K.
  rewrite mount_cleanups.
  set (w1 := (mount props w).1) in *. clearbody w1.
  simpl. unfold audience_off. simpl.
  rewrite T, A, K, !remove_last_snoc. auto.
Qed.

(** C2. The tree subscription and the audience subscription are gone
    after the unmount, the five container subscriptions are not: when
    the container then emits "dirty", the listener of the unmounted
    component still calls [setSaved(false)]. *)
Theorem container_listeners_survive_unmount props w :
  let w2 := unmount (mount props w).2 (mount props w).1 in
  treeChanged_listeners w2 = treeChanged_listeners w
  ∧ audience_listeners (audience w2) = audience_listeners (audience w)
  ∧ container_listeners (container w2) =
    container_listeners (container w) ++ container_subscriptions
  ∧ setSaved false
    ∈ new_calls w2 (deliver undefinedUserId (container_emits "dirty") w2).
Proof.
  destruct (unmount_mount_listeners props w) as (T & A & K).
  set (w2 := unmount (mount props w).2 (mount props w).1) in *.
  clearbody w2. cbv zeta.
  repeat (split; [assumption|]).
  unfold deliver, notified, random_of, listeners_of. rewrite K.
  rewrite filter_app, fmap_app.
  replace ((filter (fun eh : string * Handler => eh.1 = "dirty")
              container_subscriptions).*2) with [h_setSaved false]
    by reflexivity.
  rewrite foldl_app. simpl.
  match goal with
  | |- context [foldl ?f w2 ?hs] =>
      destruct (only_setters_runs hs 0 w2) as (_ & _ & _ & _ & _ & new & E & _)
  end.
  rewrite (new_calls_app w2 _ (new ++ [setSaved false])).
  - apply elem_of_app. right. by apply list_elem_of_singleton.
  - simpl. rewrite E, app_assoc. reflexivity.
Qed.

(** C4 (amended). The second effect of [Canvas] adds five listeners to
    the container, under the five distinct names "connected",
    "disconnected", "dirty", "saved" and "disposed", after those the
    container already had. *)
Theorem mount_subscribes_to_five_container_events props w :
  let added := container_subscriptions in
  container_listeners (container (mount props w).1) =
    container_listeners (container w) ++ added
  ∧ added.*1 = ["connected"; "disconnected"; "dirty"; "saved"; "disposed"]
  ∧ NoDup added.*1
  ∧ length added = 5%nat.
Proof.
  cbv zeta. split; [apply mount_container_listeners|].
  split; [reflexivity|]. split; [|reflexivity].
  compute_done.
Qed.

(** ** The views *)

#[local] Abbreviation ViewProps := (ViewProps Session ClientSession).

Implicit Types (props : ViewProps).

(** The loop of [ConferenceView] pushes one element per session. *)
Lemma ConferenceView_sessionArray_map props :
  ConferenceView_sessionArray id props =
  map (fun i => E_RootSessionWrapper (id i) i (clientId props)
                  (clientSession props) (fluidMembers props))
      (items (sessions (conference props))).
Proof. exact (foldl_push _ _ []). Qed.

(** No per-session element in what [ConferenceView] returns. *)
Lemma ConferenceView_no_RootSessionWrapper props :
  RootSessionWrappers (ConferenceView id props) = [].
Proof. reflexivity. Qed.

(** C5 (amended). For a sessions list of N elements, the array
    [ConferenceView] builds has N per-session elements, the i-th made
    from the i-th session and keyed by its [id]; the tree it returns
    holds no per-session element and gives the whole sessions list to
    one [SessionsView]. *)
Theorem ConferenceView_sessionArray_keyed props :
  let listed := items (sessions (conference props)) in
  ConferenceView_sessionArray id props =
    map (fun i => E_RootSessionWrapper (id i) i (clientId props)
                    (clientSession props) (fluidMembers props)) listed
  ∧ length (ConferenceView_sessionArray id props) = length listed
  ∧ RootSessionWrappers (ConferenceView id props) = []
  ∧ E_SessionsView None (sessions (conference props)) "Unscheduled"
      (clientId props) (clientSession props) (fluidMembers props)
      (Some (conference props))
    ∈ nodes (ConferenceView id props).
Proof.
  cbv zeta. split; [apply ConferenceView_sessionArray_map|].
  split; [rewrite ConferenceView_sessionArray_map; apply length_map|].
  split; [apply ConferenceView_no_RootSessionWrapper|].
  simpl. do 2 apply list_elem_of_further. apply list_elem_of_here.
Qed.

(** C6. [DaysView] returns a fragment with one [SessionsView] per day,
    in the order of the days: keyed by [Tree.key(day)], showing that
    day, and titled "Day " followed by k + 1 when the key is the number
    k. *)
Theorem DaysView_one_SessionsView_per_day props :
  let listed := days (conference props) in
  DaysView props =
    E_Fragment
      (map (fun day =>
              E_SessionsView (Some (Tree_key day)) day
                (string_plus "Day " (key_plus_one (Tree_key day)))
                (clientId props) (clientSession props) (fluidMembers props)
                None)
           listed)
  ∧ length (children (DaysView props)) = length listed
  ∧ ∀ k : N,
      string_plus "Day " (key_plus_one (KNum k)) = "Day " +:+ pretty (k + 1)%N.
Proof.
  cbv zeta.
  assert (E : DaysView props =
    E_Fragment
      (map (fun day =>
              E_SessionsView (Some (Tree_key day)) day
                (string_plus "Day " (key_plus_one (Tree_key day)))
                (clientId props) (clientSession props) (fluidMembers props)
                None)
           (days (conference props)))).
  { unfold DaysView. f_equal. exact (foldl_push _ _ []). }
  split; [exact E|]. split; [|reflexivity].
  rewrite E. simpl. apply length_map.
Qed.

(** C9. What [ConferenceView] returns is the column of three boxes: a
    [SessionsView] titled "Unscheduled" over the whole sessions list, a
    [DaysView], and an empty spacer. The [return] gives this tree
    whatever [sessionArray] holds, and no per-session element is in
    it. *)
Theorem ConferenceView_ignores_sessionArray props :
  ConferenceView id props =
    E_div "flex flex-col h-full w-full content-start overflow-auto"
      [ E_div "flex w-full p-4"
          [ E_SessionsView None (sessions (conference props)) "Unscheduled"
              (clientId props) (clientSession props) (fluidMembers props)
              (Some (conference props)) ];
        E_div "flex flex-row h-full w-full flex-nowrap gap-4 p-4 content-start"
          [ E_DaysView props ];
        E_div "flex w-full h-24" [] ]
  ∧ (∀ sessionArray : list (Element Session ClientSession),
       ConferenceView_return props sessionArray = ConferenceView id props)
  ∧ RootSessionWrappers (ConferenceView id props) = [].
Proof.
  split; [reflexivity|]. split; [reflexivity|].
  apply ConferenceView_no_RootSessionWrapper.
Qed.

(** * Further properties of the code *)

(** ** What mounting reports *)

(** X1. Mounting reports the container as it is: the second effect
    calls [setConnectionState] with the label of the current state and
    then [setSaved] with the negation of [isDirty], and makes no other
    call; the component state starts at 0. *)
Theorem mount_reports_container (props : CanvasProps) w :
  new_calls w (mount props w).1 =
    [ setConnectionState (connection_label (connectionState (container w)));
      setSaved (negb (isDirty (container w))) ]
  ∧ invalidations (mount props w).1 = 0%Qc.
Proof.
  unfold mount, Canvas_effects, run_effects, effect_tree, effect_container,
    effect_audience, Tree_on. simpl.
  rewrite updateConnectionState_invoke. simpl. split; [|reflexivity].
  apply new_calls_app. simpl. rewrite <- app_assoc. reflexivity.
Qed.

(** ** Which listener answers which notification *)

Lemma listeners_of_cons (event e : string) h (l : list (string * Handler)) :
  listeners_of event ((e, h) :: l) =
  if decide (e = event) then h :: listeners_of event l else listeners_of event l.
Proof.
  unfold listeners_of. rewrite filter_cons. simpl.
  destruct (decide (e = event)); reflexivity.
Qed.

Lemma listeners_of_nil (event : string) : listeners_of event [] = [].
Proof. reflexivity. Qed.

Lemma new_calls_invoke w c : new_calls w (invoke c w) = [c].
Proof. by apply new_calls_app. Qed.

(** X2. With the five listeners of the mount on the container: "dirty"
    makes the one call [setSaved(false)], "saved" the one call
    [setSaved(true)]; "connected", "disconnected" and "disposed" each
    make the one call [setConnectionState] with the label of the state
    the container is in at that moment (so there is no label of its own
    for "disposed"); any other event makes no call. *)
Theorem container_events_wired w (event : string) :
  container_listeners (container w) = container_subscriptions →
  new_calls w (deliver undefinedUserId (container_emits event) w) =
    if decide (event ∈ ["connected"; "disconnected"; "disposed"]) then
      [setConnectionState (connection_label (connectionState (container w)))]
    else if decide (event = "dirty") then [setSaved false]
    else if decide (event = "saved") then [setSaved true]
    else [].
Proof.
  intros L. unfold deliver, notified, random_of. rewrite L.
  rewrite !listeners_of_cons, listeners_of_nil.
  assert (M : ∀ x : string,
            x ∈ ["connected"; "disconnected"; "disposed"]
            ↔ x = "connected" ∨ x = "disconnected" ∨ x = "disposed").
  { intros x. rewrite !elem_of_cons, elem_of_nil. tauto. }
  destruct (decide (event ∈ _)) as [I|I]; rewrite M in I.
  - destruct I as [-> | [-> | ->]]; simpl;
      rewrite updateConnectionState_invoke; apply new_calls_invoke.
  - repeat (destruct (decide (_ = event)) as [<- | ?]; [tauto|]).
    destruct (decide ("dirty" = event)) as [<- | ?]; [apply new_calls_invoke|].
    rewrite (decide_False (P := event = "dirty")) by congruence.
    destruct (decide ("saved" = event)) as [<- | ?]; [apply new_calls_invoke|].
    rewrite (decide_False (P := event = "saved")) by congruence.
    destruct (decide (_ = event)) as [<- | ?]; [tauto|].
    by apply new_calls_same.
Qed.

(** Dispatch to an audience that holds one listener. *)
Lemma deliver_to_one_audience_listener w (user event : string) :
  audience_listeners (audience w) = [("membersChanged", h_updateMembers user)] →
  deliver undefinedUserId (audience_emits event) w =
    if decide (event = "membersChanged") then updateMembers undefinedUserId user w
    else w.
Proof.
  intros L. unfold deliver, notified. rewrite L.
  rewrite listeners_of_cons, listeners_of_nil.
  case_decide; subst; case_decide; try reflexivity; congruence.
Qed.

(** X3. Mounting on an audience nobody listens to subscribes the
    component to "membersChanged" and to nothing else there: that event
    then runs [updateMembers] with the [currentUser] of the props the
    component was mounted with, and any other audience event leaves the
    world as it is. *)
Theorem mounted_Canvas_hears_membersChanged (props : CanvasProps) w
    (event : string) :
  audience_listeners (audience w) = [] →
  deliver undefinedUserId (audience_emits event) (mount props w).1 =
    if decide (event = "membersChanged")
    then updateMembers undefinedUserId (currentUser props) (mount props w).1
    else (mount props w).1.
Proof.
  intros L. pose proof (mount_audience_listeners props w) as A.
  rewrite L, app_nil_l in A.
  exact (deliver_to_one_audience_listener (mount props w).1
           (currentUser props) event A).
Qed.

(** X4. With the one listener of the mount on the tree: a change sets
    the invalidation counter to the number drawn for it, whatever the
    counter held, because the closure adds the draw to the 0 it
    captured on the first render. Draws do not add up over successive
    changes, and no setter is called. *)
Theorem treeChanged_overwrites_invalidations w (r1 r2 : Qc) :
  treeChanged_listeners w = [h_treeChanged 0] →
  let w1 := deliver undefinedUserId (tree_emits_treeChanged r1) w in
  let w2 := deliver undefinedUserId (tree_emits_treeChanged r2) w1 in
  invalidations w1 = r1 ∧ invalidations w2 = r2 ∧ calls w2 = calls w.
Proof.
  intros L. unfold deliver, notified, random_of. rewrite L. simpl.
  rewrite L. simpl. rewrite !Qcplus_0_l. auto.
Qed.

(** ** Mounting again and again *)

Lemma remount_listeners (props : CanvasProps) w :
  treeChanged_listeners (remount props w) = treeChanged_listeners w
  ∧ audience_listeners (audience (remount props w))
    = audience_listeners (audience w)
  ∧ container_listeners (container (remount props w))
    = container_listeners (container w) ++ container_subscriptions.
Proof. exact (unmount_mount_listeners props w). Qed.

Lemma concat_replicate_snoc {A} (k : nat) (l : list A) :
  concat (replicate k l) ++ l = l ++ concat (replicate k l).
Proof.
  induction k as [|k IH]; simpl.
  - symmetry. apply app_nil_r.
  - rewrite <- app_assoc, IH. reflexivity.
Qed.

Lemma listeners_of_app (event : string) (l1 l2 : list (string * Handler)) :
  listeners_of event (l1 ++ l2) = listeners_of event l1 ++ listeners_of event l2.
Proof. unfold listeners_of. rewrite filter_app. apply fmap_app. Qed.

Lemma listeners_of_dirty_replicate (k : nat) :
  listeners_of "dirty" (concat (replicate k container_subscriptions))
  = replicate k (h_setSaved false).
Proof.
  induction k as [|k IH]; [reflexivity|].
  change (listeners_of "dirty"
            (container_subscriptions
             ++ concat (replicate k container_subscriptions))
          = h_setSaved false :: replicate k (h_setSaved false)).
  rewrite listeners_of_app, IH. reflexivity.
Qed.

Lemma calls_run_setSaved_replicate (k : nat) (b : bool) (random : Qc) w :
  calls (foldl (fun w h => run undefinedUserId h random w) w
           (replicate k (h_setSaved b)))
  = calls w ++ replicate k (setSaved b).
Proof.
  revert w. induction k as [|k IH]; intros w; simpl.
  - symmetry. apply app_nil_r.
  - rewrite IH. simpl. rewrite <- app_assoc. reflexivity.
Qed.

(** X5. Each mount-and-unmount gives the tree and the audience their
    listeners back and leaves five more on the container: after k
    rounds the container holds k copies of the five subscriptions on
    top of what it had. *)
Theorem remount_accumulates_container_listeners (k : nat) (props : CanvasProps) w :
  let wk := Nat.iter k (remount props) w in
  treeChanged_listeners wk = treeChanged_listeners w
  ∧ audience_listeners (audience wk) = audience_listeners (audience w)
  ∧ container_listeners (container wk)
    = container_listeners (container w)
      ++ concat (replicate k container_subscriptions).
Proof.
  cbv zeta. induction k as [|k (T & A & K)].
  - simpl. rewrite app_nil_r. auto.
  - rewrite Nat.iter_succ.
    destruct (remount_listeners props (Nat.iter k (remount props) w))
      as (T' & A' & K').
    rewrite T', A', K', T, A, K.
    repeat split. rewrite <- app_assoc. f_equal.
    apply (concat_replicate_snoc k container_subscriptions).
Qed.

(** X6. On a container that had no listener, k rounds of mounting and
    unmounting make one later "dirty" event call [setSaved(false)] k
    times. *)
Theorem remount_multiplies_setSaved (k : nat) (props : CanvasProps) w :
  container_listeners (container w) = [] →
  let wk := Nat.iter k (remount props) w in
  new_calls wk (deliver undefinedUserId (container_emits "dirty") wk)
  = replicate k (setSaved false).
Proof.
  intros L. cbv zeta.
  assert (K : container_listeners (container (Nat.iter k (remount props) w))
              = concat (replicate k container_subscriptions)).
  { induction k as [|k IH]; [exact L|].
    rewrite Nat.iter_succ.
    destruct (remount_listeners props (Nat.iter k (remount props) w))
      as (_ & _ & K').
    rewrite K', IH. apply (concat_replicate_snoc k container_subscriptions). }
  apply new_calls_app. unfold deliver, notified, random_of.
  rewrite K, listeners_of_dirty_replicate.
  apply calls_run_setSaved_replicate.
Qed.

(** ** What the calls depend on *)

Lemma new_calls_trans w1 w2 w3 (a b : list SetterCall) :
  calls w2 = calls w1 ++ a → calls w3 = calls w2 ++ b →
  new_calls w1 w3 = a ++ b.
Proof.
  intros E1 E2. apply new_calls_app. rewrite E2, E1, app_assoc. reflexivity.
Qed.

Lemma calls_grow w w' :
  only_setters w w' → calls w' = calls w ++ new_calls w w'.
Proof.
  intros (_ & _ & _ & _ & _ & new & E & _).
  rewrite (new_calls_app _ _ _ E). exact E.
Qed.

Lemma new_calls_setInvalidations w (v : Qc) :
  new_calls w (setInvalidations v w) = [].
Proof. by apply new_calls_same. Qed.

Lemma updateMembers_agree user w w' :
  container w = container w' → audience w = audience w' →
  new_calls w (updateMembers undefinedUserId user w)
  = new_calls w' (updateMembers undefinedUserId user w').
Proof.
  intros K A.
  destruct (getMyself (audience w)) as [m|] eqn:Em.
  2: { rewrite (updateMembers_no_myself user w Em).
       rewrite A in Em. rewrite (updateMembers_no_myself user w' Em).
       rewrite !new_calls_same; reflexivity. }
  destruct (loosely_undefined (userId m)) eqn:U.
  { rewrite (updateMembers_no_userId user w m Em U).
    rewrite A in Em. rewrite (updateMembers_no_userId user w' m Em U).
    rewrite !new_calls_same; reflexivity. }
  destruct (getMembers (audience w)) as [members|] eqn:Eg.
  2: { rewrite (updateMembers_no_members user w Eg).
       rewrite A in Eg. rewrite (updateMembers_no_members user w' Eg).
       rewrite !new_calls_same; reflexivity. }
  destruct (decide (connectionState (container w) = Connected)) as [Ec|N].
  2: { rewrite (updateMembers_not_connected user w N).
       rewrite K in N. rewrite (updateMembers_not_connected user w' N).
       rewrite !new_calls_same; reflexivity. }
  rewrite (new_calls_app _ _ _ (updateMembers_passes user w m members Em U Eg Ec)).
  rewrite A in Em, Eg. rewrite K in Ec.
  rewrite (new_calls_app _ _ _ (updateMembers_passes user w' m members Em U Eg Ec)).
  reflexivity.
Qed.

Lemma run_agree h (random : Qc) w w' :
  container w = container w' → audience w = audience w' →
  new_calls w (run undefinedUserId h random w)
  = new_calls w' (run undefinedUserId h random w').
Proof.
  intros K A. destruct h; simpl.
  - rewrite !new_calls_setInvalidations. reflexivity.
  - rewrite !updateConnectionState_invoke, !new_calls_invoke, K. reflexivity.
  - rewrite !new_calls_invoke. reflexivity.
  - by apply updateMembers_agree.
Qed.

Lemma runs_agree (hs : list Handler) (random : Qc) w w' :
  container w = container w' → audience w = audience w' →
  new_calls w (foldl (fun w h => run undefinedUserId h random w) w hs)
  = new_calls w' (foldl (fun w h => run undefinedUserId h random w) w' hs).
Proof.
  revert w w'. induction hs as [|h hs IH]; intros w w' K A; simpl.
  - rewrite !new_calls_same; reflexivity.
  - pose proof (only_setters_run h random w) as R.
    pose proof (only_setters_run h random w') as R'.
    rewrite (new_calls_trans w _ _ _ _ (calls_grow _ _ R)
               (calls_grow _ _ (only_setters_runs hs random _))).
    rewrite (new_calls_trans w' _ _ _ _ (calls_grow _ _ R')
               (calls_grow _ _ (only_setters_runs hs random _))).
    destruct R as (_ & _ & _ & Kr & Ar & _).
    destruct R' as (_ & _ & _ & Kr' & Ar' & _).
    f_equal; [by apply run_agree|].
    apply IH; congruence.
Qed.

Lemma deliver_agree (n : Notification) w w' :
  container w = container w' → audience w = audience w' →
  treeChanged_listeners w = treeChanged_listeners w' →
  new_calls w (deliver undefinedUserId n w)
  = new_calls w' (deliver undefinedUserId n w').
Proof.
  intros K A T. unfold deliver.
  replace (notified n w') with (notified n w)
    by (destruct n; simpl; congruence).
  by apply runs_agree.
Qed.


(** X8. A notification delivered a second time, with nothing changed in
    between, repeats the calls of the first delivery exactly. *)
Theorem duplicate_notification_repeats_calls (n : Notification) w :
  let w1 := deliver undefinedUserId n w in
  new_calls w1 (deliver undefinedUserId n w1) = new_calls w w1.
Proof.
  cbv zeta.
  destruct (only_setters_runs (notified n w) (random_of n) w)
    as (_ & _ & T & K & A & _).
  fold (deliver undefinedUserId n w) in *.
  by apply deliver_agree.
Qed.

(** ** When [updateMembers] calls, and with what *)

Lemma setFluidMembers_called user w (ids : list string) :
  setFluidMembers ids ∈ new_calls w (updateMembers undefinedUserId user w)
  ↔ ∃ m members,
      getMyself (audience w) = Some m
      ∧ loosely_undefined (userId m) = false
      ∧ getMembers (audience w) = Some members
      ∧ connectionState (container w) = Connected
      ∧ ids = Map_keys members.
Proof.
  split.
  - destruct (updateMembers_cases user w)
      as [E|(m & members & Em & U & Eg & Ec)].
    + rewrite E, (new_calls_same w w eq_refl). intros H.
      by apply elem_of_nil in H.
    + rewrite (new_calls_app _ _ _
                 (updateMembers_passes user w m members Em U Eg Ec)).
      intros H. exists m, members. repeat (split; [assumption|]).
      apply elem_of_app in H as [H|H].
      * destruct (decide (user = undefinedUserId));
          [|by apply elem_of_nil in H].
        destruct (userId m); try (by apply elem_of_nil in H).
        apply list_elem_of_singleton in H. discriminate.
      * apply list_elem_of_singleton in H. by injection H.
  - intros (m & members & Em & U & Eg & Ec & ->).
    rewrite (new_calls_app _ _ _
               (updateMembers_passes user w m members Em U Eg Ec)).
    apply elem_of_app. right. by apply list_elem_of_singleton.
Qed.

(** X9. [updateMembers] calls [setFluidMembers] exactly when all four
    guards let it through: [getMyself()] is there, its [userId] is
    neither undefined nor null, [getMembers()] is there and the
    container is [Connected]; the argument is then the key list of the
    member map. *)
Theorem updateMembers_setFluidMembers_iff user w (ids : list string) :
  setFluidMembers ids ∈ new_calls w (updateMembers undefinedUserId user w)
  ↔ ∃ m members,
      getMyself (audience w) = Some m
      ∧ loosely_undefined (userId m) = false
      ∧ getMembers (audience w) = Some members
      ∧ connectionState (container w) = Connected
      ∧ ids = Map_keys members.
Proof. apply setFluidMembers_called. Qed.

(** X10. [updateMembers] calls [setCurrentUser] with a string exactly
    when [props.currentUser] is the sentinel, that string is the
    [userId] of [getMyself()], [getMembers()] is there and the container
    is [Connected]: a known user id is not announced while the container
    is not connected or the member map is missing. *)
Theorem updateMembers_setCurrentUser_iff user w (arg : string) :
  setCurrentUser arg ∈ new_calls w (updateMembers undefinedUserId user w)
  ↔ user = undefinedUserId
    ∧ ∃ m members,
        getMyself (audience w) = Some m
        ∧ userId m = JsString arg
        ∧ getMembers (audience w) = Some members
        ∧ connectionState (container w) = Connected.
Proof.
  split.
  - destruct (updateMembers_cases user w)
      as [E|(m & members & Em & U & Eg & Ec)].
    + rewrite E, (new_calls_same w w eq_refl). intros H.
      by apply elem_of_nil in H.
    + rewrite (new_calls_app _ _ _
                 (updateMembers_passes user w m members Em U Eg Ec)).
      intros H. apply elem_of_app in H as [H|H].
      * destruct (decide (user = undefinedUserId)) as [->|?];
          [|by apply elem_of_nil in H].
        split; [reflexivity|]. exists m, members.
        destruct (userId m) as [| |b|s]; try (by apply elem_of_nil in H).
        apply list_elem_of_singleton in H. injection H as ->. auto.
      * apply list_elem_of_singleton in H. discriminate.
  - intros (-> & m & members & Em & Eu & Eg & Ec).
    assert (U : loosely_undefined (userId m) = false) by (by rewrite Eu).
    rewrite (new_calls_app _ _ _
               (updateMembers_passes undefinedUserId w m members Em U Eg Ec)).
    rewrite decide_True by reflexivity. rewrite Eu.
    apply elem_of_app. left. by apply list_elem_of_singleton.
Qed.

Lemma Map_keys_elem_of (members : gmap string IMember) (i : string) :
  i ∈ Map_keys members ↔ is_Some (members !! i).
Proof.
  unfold Map_keys. rewrite list_elem_of_fmap. split.
  - intros ([k v] & -> & H). apply elem_of_map_to_list in H. by exists v.
  - intros [v H]. exists (i, v). split; [reflexivity|].
    by apply elem_of_map_to_list.
Qed.

(** X11. The list handed to [setFluidMembers] names the members and
    nobody else: an id is in it exactly when the member map has an
    entry for it, and it is as long as the map is large (empty for an
    empty map). *)
Theorem setFluidMembers_lists_exactly_the_members user w (ids : list string) :
  setFluidMembers ids ∈ new_calls w (updateMembers undefinedUserId user w) →
  ∃ members,
    getMembers (audience w) = Some members
    ∧ (∀ i, i ∈ ids ↔ is_Some (members !! i))
    ∧ length ids = size members.
Proof.
  intros H. apply setFluidMembers_called in H
    as (m & members & _ & _ & Eg & _ & ->).
  exists members. split; [exact Eg|]. split.
  - apply Map_keys_elem_of.
  - unfold Map_keys. rewrite length_fmap. apply length_map_to_list.
Qed.

(** ** Across a whole life *)

Lemma derived_from_members w w' c :
  getMyself (audience w') = getMyself (audience w) →
  getMembers (audience w') = getMembers (audience w) →
  derived_from w c → derived_from w' c.
Proof. intros M G. destruct c; simpl; rewrite ?M, ?G; auto. Qed.

Lemma documents_kept_refl w : documents_kept w w.
Proof.
  repeat split. exists []. split; [symmetry; apply app_nil_r|constructor].
Qed.

Lemma documents_kept_trans w1 w2 w3 :
  documents_kept w1 w2 → documents_kept w2 w3 → documents_kept w1 w3.
Proof.
  intros (C1 & S1 & K1 & D1 & M1 & G1 & new1 & E1 & F1)
         (C2 & S2 & K2 & D2 & M2 & G2 & new2 & E2 & F2).
  repeat split; try congruence.
  exists (new1 ++ new2). split.
  - rewrite E2, E1, app_assoc. reflexivity.
  - apply Forall_app. split; [exact F1|].
    eapply Forall_impl; [exact F2|]. intros c.
    apply derived_from_members; congruence.
Qed.

Lemma documents_kept_only_setters w w' :
  only_setters w w' → documents_kept w w'.
Proof.
  intros (C & S & _ & K & A & N).
  repeat split; try assumption; try (by rewrite K); by rewrite A.
Qed.

Lemma documents_kept_mount (props : CanvasProps) w :
  documents_kept w (mount props w).1.
Proof.
  unfold mount, Canvas_effects, run_effects, effect_tree, effect_container,
    effect_audience, Tree_on. simpl.
  rewrite updateConnectionState_invoke. simpl.
  repeat split. eexists. split; [simpl; rewrite <- app_assoc; reflexivity|].
  constructor; [|constructor; [exact I|constructor]].
  simpl. destruct (connectionState (container w)); set_solver.
Qed.

Lemma documents_kept_run_cleanup (c : Cleanup) w :
  documents_kept w (run_cleanup c w).
Proof.
  destruct c; simpl; repeat split;
    (exists []; split; [symmetry; apply app_nil_r|constructor]).
Qed.

Lemma documents_kept_unmount (cleanups : list Cleanup) w :
  documents_kept w (unmount cleanups w).
Proof.
  unfold unmount. revert w.
  induction cleanups as [|c cs IH]; intros w; simpl.
  - apply documents_kept_refl.
  - eapply documents_kept_trans; [apply documents_kept_run_cleanup|apply IH].
Qed.

Lemma documents_kept_act (a : Action) (s : World * list Cleanup) :
  documents_kept s.1 (act undefinedUserId a s).1.
Proof.
  destruct a; simpl.
  - apply documents_kept_mount.
  - apply documents_kept_unmount.
  - apply documents_kept_only_setters, only_setters_runs.
Qed.

Lemma documents_kept_lifecycle (actions : list Action)
    (s : World * list Cleanup) :
  documents_kept s.1 (lifecycle undefinedUserId actions s).1.
Proof.
  unfold lifecycle. revert s.
  induction actions as [|a actions IH]; intros s; simpl.
  - apply documents_kept_refl.
  - eapply documents_kept_trans; [apply documents_kept_act|apply IH].
Qed.

(** X12. Over any sequence of mounts, unmounts and notifications, the
    component leaves both trees, the connection state, the dirty flag,
    [getMyself()] and [getMembers()] as they were; the log keeps what
    it had and grows by calls with derived arguments only, so the
    handlers and effects never call [setShowPrompt]. *)
Theorem lifecycle_keeps_documents (actions : list Action) w
    (cleanups : list Cleanup) :
  let w' := (lifecycle undefinedUserId actions (w, cleanups)).1 in
  conferenceTree_root w' = conferenceTree_root w
  ∧ sessionTree_root w' = sessionTree_root w
  ∧ connectionState (container w') = connectionState (container w)
  ∧ isDirty (container w') = isDirty (container w)
  ∧ getMyself (audience w') = getMyself (audience w)
  ∧ getMembers (audience w') = getMembers (audience w)
  ∧ calls w' = calls w ++ new_calls w w'
  ∧ Forall (derived_from w) (new_calls w w')
  ∧ ∀ b, setShowPrompt b ∉ new_calls w w'.
Proof.
  destruct (documents_kept_lifecycle actions (w, cleanups))
    as (C & S & K & D & M & G & new & E & F).
  cbv zeta. simpl in *. rewrite (new_calls_app _ _ _ E).
  repeat (split; [assumption|]).
  intros b H. rewrite Forall_forall in F. exact (F _ H).
Qed.

(** ** The day columns *)

(** The element [DaysView] makes for a day. *)
#[local] Abbreviation day_element props :=
  (fun day : Sessions Session =>
     E_SessionsView (Some (Tree_key day)) day
       (string_plus "Day " (key_plus_one (Tree_key day)))
       (clientId props) (clientSession props) (fluidMembers props)
       (None : option (Conference Session))).

Lemma DaysView_fragment props :
  DaysView props = E_Fragment (map (day_element props) (days (conference props))).
Proof. unfold DaysView. f_equal. exact (foldl_push _ _ []). Qed.

Lemma day_title_inj (k1 k2 : N) :
  string_plus "Day " (key_plus_one (KNum k1))
  = string_plus "Day " (key_plus_one (KNum k2)) →
  k1 = k2.
Proof.
  unfold string_plus, key_plus_one. intros E.
  apply String.app_inj, pretty_N_inj in E. lia.
Qed.

Lemma key_of_day_elements props (l : list (Sessions Session)) :
  key_of <$> map (day_element props) l = Some <$> (Tree_key <$> l).
Proof.
  induction l as [|d l IH]; [reflexivity|]. simpl. f_equal. exact IH.
Qed.

Lemma title_of_day_elements props (l : list (Sessions Session)) :
  title_of <$> map (day_element props) l
  = (fun key => Some (string_plus "Day " (key_plus_one key)))
    <$> (Tree_key <$> l).
Proof.
  induction l as [|d l IH]; [reflexivity|]. simpl. f_equal. exact IH.
Qed.

(** X13. When the keys of the days are numbers and no two days share a
    key, no two columns of [DaysView] share a React key, and no two
    share a title. *)
Theorem DaysView_titles_distinct props :
  (∀ day, day ∈ days (conference props) → ∃ k, Tree_key day = KNum k) →
  NoDup (Tree_key <$> days (conference props)) →
  NoDup (key_of <$> children (DaysView props))
  ∧ NoDup (title_of <$> children (DaysView props)).
Proof.
  intros Num Distinct. rewrite DaysView_fragment. simpl.
  rewrite key_of_day_elements, title_of_day_elements. split.
  - apply NoDup_fmap_2; [|exact Distinct]. intros x y E. by injection E.
  - apply NoDup_fmap_2_strong; [|exact Distinct].
    intros x y Hx Hy E.
    apply list_elem_of_fmap in Hx as (dx & -> & Hx).
    apply list_elem_of_fmap in Hy as (dy & -> & Hy).
    destruct (Num dx Hx) as [kx Ex], (Num dy Hy) as [ky Ey].
    rewrite Ex, Ey in *. apply (inj Some) in E.
    f_equal. by apply day_title_inj.
Qed.

(** ** The conference view with its day columns *)

Lemma nodes_day_elements props (l : list (Sessions Session)) :
  concat (map nodes (map (day_element props) l)) = map (day_element props) l.
Proof.
  induction l as [|d l IH]; [reflexivity|].
  simpl. f_equal. exact IH.
Qed.

Lemma filter_day_elements props (l : list (Sessions Session)) :
  filter (fun x => is_SessionsView x = true) (map (day_element props) l)
  = map (day_element props) l.
Proof.
  induction l as [|d l IH]; [reflexivity|].
  simpl. rewrite filter_cons_True by reflexivity. f_equal. exact IH.
Qed.

Lemma filter_out_day_elements props (l : list (Sessions Session)) :
  filter (fun x => is_RootSessionWrapper x = true) (map (day_element props) l)
  = [].
Proof.
  induction l as [|d l IH]; [reflexivity|].
  simpl. rewrite filter_cons_False by (simpl; discriminate). exact IH.
Qed.

Lemma render_day_elements props (l : list (Sessions Session)) :
  map render_DaysView (map (day_element props) l) = map (day_element props) l.
Proof.
  induction l as [|d l IH]; [reflexivity|].
  simpl. f_equal. exact IH.
Qed.

(** X14. Once React has called [DaysView] for the element
    [ConferenceView] returns, the view shows one [SessionsView] more
    than there are days: first the unscheduled sessions, then one
    column per day in the order of the days, every one of them with the
    [clientId], [clientSession] and [fluidMembers] that [ConferenceView]
    was given. No [DaysView] element and no per-session element is left
    in the tree. *)
Theorem ConferenceView_rendered_columns props :
  let rendered := render_DaysView (ConferenceView id props) in
  SessionsViews rendered =
    E_SessionsView None (sessions (conference props)) "Unscheduled"
      (clientId props) (clientSession props) (fluidMembers props)
      (Some (conference props))
    :: map (day_element props) (days (conference props))
  ∧ length (SessionsViews rendered) = S (length (days (conference props)))
  ∧ RootSessionWrappers rendered = []
  ∧ render_DaysView rendered = rendered.
Proof.
  cbv zeta.
  assert (R : render_DaysView (ConferenceView id props) =
    E_div "flex flex-col h-full w-full content-start overflow-auto"
      [ E_div "flex w-full p-4"
          [ E_SessionsView None (sessions (conference props)) "Unscheduled"
              (clientId props) (clientSession props) (fluidMembers props)
              (Some (conference props)) ];
        E_div "flex flex-row h-full w-full flex-nowrap gap-4 p-4 content-start"
          [ E_Fragment (map (day_element props) (days (conference props))) ];
        E_div "flex w-full h-24" [] ]).
  { simpl. rewrite DaysView_fragment. reflexivity. }
  rewrite R.
  assert (V : SessionsViews
    (E_div "flex flex-col h-full w-full content-start overflow-auto"
      [ E_div "flex w-full p-4"
          [ E_SessionsView None (sessions (conference props)) "Unscheduled"
              (clientId props) (clientSession props) (fluidMembers props)
              (Some (conference props)) ];
        E_div "flex flex-row h-full w-full flex-nowrap gap-4 p-4 content-start"
          [ E_Fragment (map (day_element props) (days (conference props))) ];
        E_div "flex w-full h-24" [] ])
    = E_SessionsView None (sessions (conference props)) "Unscheduled"
        (clientId props) (clientSession props) (fluidMembers props)
        (Some (conference props))
      :: map (day_element props) (days (conference props))).
  { unfold SessionsViews. simpl.
    rewrite nodes_day_elements, !app_nil_r.
    rewrite !filter_cons_False by (simpl; discriminate).
    rewrite filter_cons_True by reflexivity. f_equal.
    rewrite !filter_cons_False by (simpl; discriminate).
    rewrite filter_app, filter_day_elements.
    rewrite filter_cons_False by (simpl; discriminate).
    apply app_nil_r. }
  split; [exact V|]. split; [rewrite V; simpl; by rewrite length_map|].
  split.
  - unfold RootSessionWrappers. simpl.
    rewrite nodes_day_elements, !app_nil_r.
    rewrite !filter_cons_False by (simpl; discriminate).
    rewrite filter_app.
    rewrite (filter_cons_False _ (E_div "flex w-full h-24" []))
      by (simpl; discriminate).
    rewrite app_nil_r. apply filter_out_day_elements.
  - simpl. rewrite render_day_elements. reflexivity.
Qed.

(** ** The current user, after a re-render *)

(** C3. The listener of "membersChanged" is the [updateMembers] of the
    first render. Mounted with the sentinel as [currentUser] and
    rendered again with any other [currentUser], the component still
    answers a membership change by calling [setCurrentUser], as long as
    [getMyself()] has a string [userId], [getMembers()] is there and the
    container is [Connected]: the call is made although the current
    prop is not the sentinel any more. *)
Theorem rerendered_Canvas_still_calls_setCurrentUser
    (props : CanvasProps) w (m : IMember) (members : gmap string IMember)
    (s : string) :
  currentUser props ≠ undefinedUserId →
  getMyself (audience w) = Some m →
  userId m = JsString s →
  getMembers (audience w) = Some members →
  connectionState (container w) = Connected →
  let rendered_again :=
    rerender props (mount_Canvas {| currentUser := undefinedUserId |} w) in
  currentUser (props_now rendered_again.2) ≠ undefinedUserId
  ∧ setCurrentUser s
    ∈ new_calls rendered_again.1
        (deliver undefinedUserId (audience_emits "membersChanged")
           rendered_again.1).
Proof.
  intros Ne Em Eu Eg Ec. cbv zeta. split; [exact Ne|].
  change (rerender props
            (mount_Canvas {| currentUser := undefinedUserId |} w)).1
    with (mount {| currentUser := undefinedUserId |} w).1.
  pose proof (mount_audience_listeners {| currentUser := undefinedUserId |} w)
    as A.
  destruct (documents_kept_mount {| currentUser := undefinedUserId |} w)
    as (_ & _ & Kc & _ & Km & Kg & _).
  set (w1 := (mount {| currentUser := undefinedUserId |} w).1) in *.
  clearbody w1.
  unfold deliver, notified, random_of. rewrite A.
  rewrite listeners_of_app, listeners_of_cons, listeners_of_nil.
  rewrite decide_True by reflexivity.
  rewrite foldl_app.
  match goal with
  | |- context [foldl ?f w1 ?hs] =>
      destruct (only_setters_runs hs 0 w1) as (_ & _ & _ & K & Au & new & E & _);
      set (wa := foldl f w1 hs) in *
  end.
  clearbody wa. cbn [foldl run currentUser].
  assert (U : loosely_undefined (userId m) = false) by (by rewrite Eu).
  assert (Em' : getMyself (audience wa) = Some m) by congruence.
  assert (Eg' : getMembers (audience wa) = Some members) by congruence.
  assert (Ec' : connectionState (container wa) = Connected) by congruence.
  pose proof (updateMembers_passes undefinedUserId wa m members Em' U Eg' Ec')
    as P.
  rewrite decide_True, Eu, E in P by reflexivity.
  rewrite (new_calls_app w1 _
             (new ++ [setCurrentUser s] ++ [setFluidMembers (Map_keys members)])).
  - apply elem_of_app. right. apply list_elem_of_here.
  - rewrite P, <- app_assoc. reflexivity.
Qed.

End Properties.

(** * The properties on the sample data *)

(** Connected, with the sentinel in the closure, alice is announced
    once. *)
Lemma updateMembers_setCurrentUser_witness :
  setCurrentUser "alice"
    ∈ new_calls (Sample.world Connected)
        (updateMembers Sample.undefinedUserId "[UNDEFINED]" (Sample.world Connected))
  ∧ ("[UNDEFINED]" = Sample.undefinedUserId
     ∧ ∃ m, getMyself (audience (Sample.world Connected)) = Some m
            ∧ userId m = JsString "alice"
            ∧ typeof (userId m) = "string").
Proof.
  assert (H : setCurrentUser "alice"
    ∈ new_calls (Sample.world Connected)
        (updateMembers Sample.undefinedUserId "[UNDEFINED]" (Sample.world Connected))).
  { vm_compute. apply list_elem_of_here. }
  split; [exact H|].
  exact (proj2 (updateMembers_setCurrentUser Sample.undefinedUserId
                  "[UNDEFINED]" (Sample.world Connected)) "alice" H).
Defined.

(** C8 at work: the two client ids of the sample audience. *)
Lemma updateMembers_setFluidMembers_NoDup_witness :
  setFluidMembers ["client-a"; "client-b"]
    ∈ new_calls (Sample.world Connected)
        (updateMembers Sample.undefinedUserId "bob" (Sample.world Connected))
  ∧ ((∃ members, getMembers (audience (Sample.world Connected)) = Some members
                 ∧ ["client-a"; "client-b"] = Map_keys members)
     ∧ NoDup ["client-a"; "client-b"]).
Proof.
  assert (H : setFluidMembers ["client-a"; "client-b"]
    ∈ new_calls (Sample.world Connected)
        (updateMembers Sample.undefinedUserId "bob" (Sample.world Connected))).
  { vm_compute. apply list_elem_of_here. }
  split; [exact H|].
  exact (updateMembers_setFluidMembers_NoDup Sample.undefinedUserId
           "bob" (Sample.world Connected) _ H).
Defined.

(** C10 at work: while the container is catching up, nothing is called. *)
Lemma updateMembers_guarded_witness :
  connectionState (container (Sample.world CatchingUp)) ≠ Connected
  ∧ updateMembers Sample.undefinedUserId "[UNDEFINED]" (Sample.world CatchingUp)
    = Sample.world CatchingUp
  ∧ new_calls (Sample.world CatchingUp)
      (updateMembers Sample.undefinedUserId "[UNDEFINED]" (Sample.world CatchingUp))
    = [].
Proof.
  assert (H : connectionState (container (Sample.world CatchingUp)) ≠ Connected)
    by (simpl; discriminate).
  split; [exact H|].
  apply (updateMembers_guarded Sample.undefinedUserId).
  right. right. right. exact H.
Defined.

(** C4 as stated fails on the sample document: mounting adds five
    container listeners, not four, and the unmount takes none away. *)
Lemma four_container_subscriptions_refuted :
  let mounted := mount Sample.canvas_props (Sample.world Connected) in
  ¬ (length (container_listeners (container mounted.1)) = 4%nat
     ∧ container_listeners (container (unmount mounted.2 mounted.1)) = []).
Proof. vm_compute. intros [H _]. discriminate H. Qed.

(** C5 as stated fails on the sample conference: one session is listed,
    and the rendered tree of [ConferenceView] has no per-session
    element. *)
Lemma ConferenceView_renders_no_session_element :
  length (items (sessions (conference Sample.view_props))) = 1%nat
  ∧ ¬ (length (RootSessionWrappers (ConferenceView Sample.id Sample.view_props))
       = length (items (sessions (conference Sample.view_props)))).
Proof. split; [reflexivity|]. vm_compute. discriminate. Qed.

(** The run behind C2, step by step: mount on the sample document,
    unmount, then the container reports "connected". The two calls of
    the mount are followed by a third, made after the unmount. *)
Example unmounted_Canvas_still_called :
  let mounted := mount Sample.canvas_props (Sample.world Connected) in
  let unmounted := unmount mounted.2 mounted.1 in
  calls unmounted = [setConnectionState "connected"; setSaved true]
  ∧ calls (deliver Sample.undefinedUserId (container_emits "connected") unmounted)
    = [setConnectionState "connected"; setSaved true;
       setConnectionState "connected"].
Proof. vm_compute. split; reflexivity. Qed.

(** The sample conference has two days, at index 0 and 1. *)
Example DaysView_sample :
  DaysView Sample.view_props =
  E_Fragment
    [ E_SessionsView (Some (KNum 0)) {| Tree_key := KNum 0; items := [Sample.lunch] |}
        "Day 1" "alice" {| Sample.selected := [] |} ["alice"] None;
      E_SessionsView (Some (KNum 1)) {| Tree_key := KNum 1; items := [] |}
        "Day 2" "alice" {| Sample.selected := [] |} ["alice"] None ].
Proof. reflexivity. Qed.

(** The array [ConferenceView] fills and then leaves aside. *)
Example ConferenceView_sessionArray_sample :
  ConferenceView_sessionArray Sample.id Sample.view_props =
  [ E_RootSessionWrapper "s1" Sample.keynote "alice" {| Sample.selected := [] |}
      ["alice"] ].
Proof. reflexivity. Qed.
(** * The further properties on the sample data *)

(** X2 at work: the mounted component hears "saved". *)
Lemma container_events_wired_witness :
  let w := (mount Sample.canvas_props (Sample.world Connected)).1 in
  container_listeners (container w)
  = [ ("connected", h_updateConnectionState);
      ("disconnected", h_updateConnectionState);
      ("dirty", h_setSaved false);
      ("saved", h_setSaved true);
      ("disposed", h_updateConnectionState) ]
  ∧ new_calls w (deliver Sample.undefinedUserId (container_emits "saved") w)
    = [setSaved true].
Proof.
  cbv zeta. split; [reflexivity|].
  exact (container_events_wired Sample.undefinedUserId
           (mount Sample.canvas_props (Sample.world Connected)).1 "saved"
           eq_refl).
Defined.

(** X3 at work: mounted on the sample document, the component hears
    "membersChanged". *)
Lemma mounted_Canvas_hears_membersChanged_witness :
  let w := (mount Sample.canvas_props (Sample.world Connected)).1 in
  audience_listeners (audience (Sample.world Connected)) = []
  ∧ deliver Sample.undefinedUserId (audience_emits "membersChanged") w
    = updateMembers Sample.undefinedUserId "[UNDEFINED]" w.
Proof.
  cbv zeta. split; [reflexivity|].
  rewrite (mounted_Canvas_hears_membersChanged Sample.undefinedUserId
             Sample.canvas_props (Sample.world Connected) "membersChanged"
             eq_refl).
  apply decide_True. reflexivity.
Defined.

(** X4 at work: two tree changes, drawing 1/2 and then 1/4. *)
Lemma treeChanged_overwrites_invalidations_witness :
  let w := (mount Sample.canvas_props (Sample.world Connected)).1 in
  let w1 := deliver Sample.undefinedUserId
              (tree_emits_treeChanged ((Q2Qc (QArith_base.Qmake 1 2)))) w in
  let w2 := deliver Sample.undefinedUserId
              (tree_emits_treeChanged ((Q2Qc (QArith_base.Qmake 1 4)))) w1 in
  treeChanged_listeners w = [h_treeChanged 0]
  ∧ invalidations w1 = (Q2Qc (QArith_base.Qmake 1 2))
  ∧ invalidations w2 = (Q2Qc (QArith_base.Qmake 1 4))
  ∧ calls w2 = calls w.
Proof.
  cbv zeta.
  assert (L : treeChanged_listeners
                (mount Sample.canvas_props (Sample.world Connected)).1
              = [h_treeChanged 0])
    by (vm_compute; reflexivity).
  split; [exact L|].
  exact (treeChanged_overwrites_invalidations Sample.undefinedUserId
           (mount Sample.canvas_props (Sample.world Connected)).1
           ((Q2Qc (QArith_base.Qmake 1 2))) ((Q2Qc (QArith_base.Qmake 1 4))) L).
Defined.

(** X6 at work: three rounds on the sample document. *)
Lemma remount_multiplies_setSaved_witness :
  let w3 := Nat.iter 3 (remount Sample.canvas_props) (Sample.world Connected) in
  container_listeners (container (Sample.world Connected)) = []
  ∧ new_calls w3 (deliver Sample.undefinedUserId (container_emits "dirty") w3)
    = [setSaved false; setSaved false; setSaved false].
Proof.
  cbv zeta. split; [reflexivity|].
  exact (remount_multiplies_setSaved Sample.undefinedUserId 3
           Sample.canvas_props (Sample.world Connected) eq_refl).
Defined.


(** X11 at work: the two members of the sample audience. *)
Lemma setFluidMembers_lists_exactly_the_members_witness :
  setFluidMembers ["client-a"; "client-b"]
    ∈ new_calls (Sample.world Connected)
        (updateMembers Sample.undefinedUserId "bob" (Sample.world Connected))
  ∧ ∃ members,
      getMembers (audience (Sample.world Connected)) = Some members
      ∧ (∀ i, i ∈ ["client-a"; "client-b"] ↔ is_Some (members !! i))
      ∧ length ["client-a"; "client-b"] = size members.
Proof.
  assert (H : setFluidMembers ["client-a"; "client-b"]
    ∈ new_calls (Sample.world Connected)
        (updateMembers Sample.undefinedUserId "bob" (Sample.world Connected))).
  { vm_compute. apply list_elem_of_here. }
  split; [exact H|].
  exact (setFluidMembers_lists_exactly_the_members Sample.undefinedUserId
           "bob" (Sample.world Connected) _ H).
Defined.

(** X13 at work: the two days of the sample conference. *)
Lemma DaysView_titles_distinct_witness :
  (∀ day, day ∈ days (conference Sample.view_props) →
          ∃ k, Tree_key day = KNum k)
  ∧ NoDup (Tree_key <$> days (conference Sample.view_props))
  ∧ NoDup (key_of <$> children (DaysView Sample.view_props))
  ∧ NoDup (title_of <$> children (DaysView Sample.view_props)).
Proof.
  assert (Num : ∀ day, day ∈ days (conference Sample.view_props) →
                       ∃ k, Tree_key day = KNum k).
  { intros day H. simpl in H.
    apply elem_of_cons in H as [->|H]; [by exists 0%N|].
    apply list_elem_of_singleton in H as ->. by exists 1%N. }
  assert (Distinct : NoDup (Tree_key <$> days (conference Sample.view_props))).
  { simpl. apply NoDup_cons. split; [|apply NoDup_singleton].
    rewrite list_elem_of_singleton. discriminate. }
  split; [exact Num|]. split; [exact Distinct|].
  exact (DaysView_titles_distinct Sample.view_props Num Distinct).
Defined.

(** Why X13 asks for numeric keys: the number 0 and the empty string
    both give the title "Day 1". *)
Example day_title_clash :
  string_plus "Day " (key_plus_one (KNum 0)) = "Day 1"
  ∧ string_plus "Day " (key_plus_one (KStr "")) = "Day 1".
Proof. split; reflexivity. Qed.

(** C3 at work: alice is mounted with the sentinel and rendered again
    as "alice"; the next membership change announces her again. *)
Lemma rerendered_Canvas_still_calls_setCurrentUser_witness :
  let rendered_again :=
    rerender {| currentUser := "alice" |}
      (mount_Canvas {| currentUser := Sample.undefinedUserId |}
         (Sample.world Connected)) in
  "alice" ≠ Sample.undefinedUserId
  ∧ currentUser (props_now rendered_again.2) ≠ Sample.undefinedUserId
  ∧ setCurrentUser "alice"
    ∈ new_calls rendered_again.1
        (deliver Sample.undefinedUserId (audience_emits "membersChanged")
           rendered_again.1).
Proof.
  assert (Ne : "alice" ≠ Sample.undefinedUserId) by discriminate.
  cbv zeta. split; [exact Ne|].
  exact (rerendered_Canvas_still_calls_setCurrentUser Sample.undefinedUserId
           {| currentUser := "alice" |} (Sample.world Connected)
           Sample.alice Sample.members "alice"
           Ne eq_refl eq_refl eq_refl eq_refl).
Defined.

(** The run behind C3, step by step: mount with the sentinel, a first
    membership change (alice is announced and the members listed), a
    render with [currentUser] "alice", a second membership change:
    alice is announced a second time. *)
Example stale_updateMembers_run :
  let mounted :=
    mount_Canvas {| currentUser := Sample.undefinedUserId |}
      (Sample.world Connected) in
  let notified_once :=
    deliver Sample.undefinedUserId (audience_emits "membersChanged") mounted.1 in
  let rendered_again :=
    rerender {| currentUser := "alice" |} (notified_once, mounted.2) in
  let notified_twice :=
    deliver Sample.undefinedUserId (audience_emits "membersChanged")
      rendered_again.1 in
  currentUser (props_now rendered_again.2) = "alice"
  ∧ new_calls mounted.1 notified_once
    = [setCurrentUser "alice"; setFluidMembers ["client-a"; "client-b"]]
  ∧ new_calls notified_once notified_twice
    = [setCurrentUser "alice"; setFluidMembers ["client-a"; "client-b"]].
Proof. vm_compute. repeat split. Qed.
